(** * hmalib.lambdas.api.api_root: the entry point of the HMA API lambda

    A shallow embedding of [api_root.py]: the classifier [is_s3_event], the
    dispatcher [lambda_handler], the loop [process_s3_event], the translator
    [submit_content_request_from_s3_event_record], the three error handlers
    and the root route.

    Python values are the JSON values a lambda payload is made of.  A numeric
    JSON value is modelled as an integer (floats are not part of the model),
    strings are ASCII strings, and a dict is the list of its items in
    insertion order (the order [json.dumps] prints them in); lookup takes the
    first item with the key.

    Python code that can raise is embedded in a state-and-exception monad:
    the state holds the calls made to the collaborators, in order, and the
    content type of bottle's thread-local [response]. *)

From Stdlib Require Import List String Ascii ZArith Bool.
From Stdlib Require Import DecimalString Lia.
Import ListNotations.
Local Open Scope string_scope.
Local Open Scope Z_scope.
Set Warnings "-register-all".

(** ** Python values *)

Inductive pyval : Type :=
| PNone
| PBool (b : bool)
| PInt (z : Z)
| PStr (s : string)
| PList (l : list pyval)
| PDict (d : list (string * pyval)).

Inductive pyexn : Type :=
| KeyError (key : string)
| TypeError
| Raised (name : string).

Inductive result (A : Type) : Type :=
| Ok (a : A)
| Raise (e : pyexn).
Arguments Ok {A} a.
Arguments Raise {A} e.

(** ** Strings *)

Fixpoint starts_with (p s : string) : bool :=
  match p, s with
  | EmptyString, _ => true
  | String a p', String b s' => Ascii.eqb a b && starts_with p' s'
  | String _ _, EmptyString => false
  end.

(** [sub in s] on two Python strings. *)
Fixpoint str_contains (sub s : string) : bool :=
  starts_with sub s ||
  match s with
  | EmptyString => false
  | String _ s' => str_contains sub s'
  end.

Fixpoint has_char (c : ascii) (s : string) : bool :=
  match s with
  | EmptyString => false
  | String a s' => Ascii.eqb a c || has_char c s'
  end.

Fixpoint chars (s : string) : list string :=
  match s with
  | EmptyString => []
  | String a s' => String a EmptyString :: chars s'
  end.

Definition string_of_Z (z : Z) : string :=
  NilZero.string_of_int (Z.to_int z).

(** ** Dicts *)

Fixpoint dict_get (k : string) (d : list (string * pyval)) : option pyval :=
  match d with
  | [] => None
  | (k', v) :: d' => if String.eqb k' k then Some v else dict_get k d'
  end.

Definition dict_has (k : string) (d : list (string * pyval)) : bool :=
  match dict_get k d with Some _ => true | None => false end.

(** ** The operators of Python the module uses *)

(** [k in v] for a string [k]: key membership in a dict, element membership
    in a list, substring in a string, [TypeError] in a value that is not
    iterable. *)
Definition py_in (k : string) (v : pyval) : result bool :=
  match v with
  | PDict d => Ok (dict_has k d)
  | PList l =>
      Ok (existsb (fun x => match x with PStr s => String.eqb s k | _ => false end) l)
  | PStr s => Ok (str_contains k s)
  | PNone | PBool _ | PInt _ => Raise TypeError
  end.

(** [v[k]] for a string [k]: the value under the key of a dict or
    [KeyError]; a list, a string and anything else raise [TypeError]. *)
Definition py_getitem (v : pyval) (k : string) : result pyval :=
  match v with
  | PDict d =>
      match dict_get k d with
      | Some x => Ok x
      | None => Raise (KeyError k)
      end
  | _ => Raise TypeError
  end.

(** [for x in v]: the elements of a list, the keys of a dict, the characters
    of a string. *)
Definition py_iter (v : pyval) : result (list pyval) :=
  match v with
  | PList l => Ok l
  | PDict d => Ok (map (fun kv => PStr (fst kv)) d)
  | PStr s => Ok (map PStr (chars s))
  | PNone | PBool _ | PInt _ => Raise TypeError
  end.

(** [v == n] for an integer literal [n]; [False == 0] and [True == 1] hold
    in Python. *)
Definition py_eq_int (v : pyval) (n : Z) : bool :=
  match v with
  | PInt z => z =? n
  | PBool b => (if b then 1 else 0) =? n
  | _ => false
  end.

(** [a + b]: on the values of the model only two strings can be added to a
    string (two lists concatenate, two numbers add). *)
Definition py_add (a b : pyval) : result pyval :=
  match a, b with
  | PStr x, PStr y => Ok (PStr (x ++ y))
  | PList x, PList y => Ok (PList (x ++ y))
  | PInt x, PInt y => Ok (PInt (x + y))
  | PInt x, PBool y => Ok (PInt (x + (if y then 1 else 0)))
  | PBool x, PInt y => Ok (PInt ((if x then 1 else 0) + y))
  | PBool x, PBool y => Ok (PInt ((if x then 1 else 0) + (if y then 1 else 0)))
  | _, _ => Raise TypeError
  end.

(** [all(f(x) for x in l)]: stops at the first false element, so an element
    after it is never evaluated. *)
Fixpoint py_all (f : pyval -> result bool) (l : list pyval) : result bool :=
  match l with
  | [] => Ok true
  | x :: l' =>
      match f x with
      | Ok true => py_all f l'
      | Ok false => Ok false
      | Raise e => Raise e
      end
  end.

(** ** json.dumps with its default separators *)

Definition hex_digit (n : N) : ascii :=
  match n with
  | 0%N => "0" | 1%N => "1" | 2%N => "2" | 3%N => "3" | 4%N => "4"
  | 5%N => "5" | 6%N => "6" | 7%N => "7" | 8%N => "8" | 9%N => "9"
  | 10%N => "a" | 11%N => "b" | 12%N => "c" | 13%N => "d" | 14%N => "e"
  | _ => "f"
  end%char.

Definition json_escape_char (c : ascii) : string :=
  let n := N_of_ascii c in
  if (n =? 34)%N then "\" ++ String c EmptyString
  else if (n =? 92)%N then "\\"
  else if (n =? 10)%N then "\n"
  else if (n =? 13)%N then "\r"
  else if (n =? 9)%N then "\t"
  else if (n =? 8)%N then "\b"
  else if (n =? 12)%N then "\f"
  else if (n <? 32)%N then
    "\u00" ++ String (hex_digit (n / 16)) (String (hex_digit (n mod 16)) EmptyString)
  else String c EmptyString.

Fixpoint json_escape (s : string) : string :=
  match s with
  | EmptyString => EmptyString
  | String c s' => json_escape_char c ++ json_escape s'
  end.

Definition dq : string := String (ascii_of_N 34) EmptyString.

Definition json_string (s : string) : string := dq ++ json_escape s ++ dq.

Fixpoint join (sep : string) (l : list string) : string :=
  match l with
  | [] => EmptyString
  | [x] => x
  | x :: l' => x ++ sep ++ join sep l'
  end.

Fixpoint json_dumps (v : pyval) : string :=
  match v with
  | PNone => "null"
  | PBool true => "true"
  | PBool false => "false"
  | PInt z => string_of_Z z
  | PStr s => json_string s
  | PList l => "[" ++ join ", " (map json_dumps l) ++ "]"
  | PDict d =>
      "{" ++ join ", " (map (fun kv => json_string (fst kv) ++ ": " ++ json_dumps (snd kv)) d)
          ++ "}"
  end.

(** ** The objects of the module *)

(** [SubmitContentRequestBody], built with the five keyword arguments the
    translator passes. *)
Record SubmitContentRequestBody : Type := {
  submission_type : string;
  content_id : pyval;
  content_type : string;
  content_bytes_url_or_file_type : pyval;
  additional_fields : pyval
}.

(** [dynamodb.Table(name)]: a handle on the named table. *)
Inductive TableHandle : Type := Table (name : string).

(** The [HTTPError] bottle hands to an error handler: what [str(e)] renders
    and the [exception] attribute. *)
Record HTTPError : Type := {
  error_str : string;
  exception : option pyexn
}.

Record Request : Type := {
  request_method : string;
  request_path : string;
  request_query : string;
  request_body : string
}.

Record HTTPResponse : Type := {
  status_code : Z;
  resp_content_type : string;
  resp_body : string
}.

(** The calls the module makes to the code around it, as they are written
    in the source. *)
Inductive call : Type :=
| LoggerInfo (msg : string)
| LoggerError (msg : string)
| LoggerException (msg : string) (exc_info : option pyexn)
| CreatePresignedUrl (bucket key version_id : pyval) (expiry : Z) (client_method : string)
| SubmitFromUrl (req : SubmitContentRequestBody) (dynamodb_table : TableHandle)
    (images_topic_arn : string)
| ApigWsgiHandler (event context : pyval)
| MountedApp (prefix : string) (req : Request).

Record State : Type := {
  calls : list call;
  response_content_type : string
}.

Definition record_call (c : call) (st : State) : State :=
  {| calls := calls st ++ [c]; response_content_type := response_content_type st |}.

(** ** The monad of Python code: state and exceptions *)

Definition M (A : Type) : Type := State -> result A * State.

Definition ret {A} (a : A) : M A := fun st => (Ok a, st).

Definition raise {A} (e : pyexn) : M A := fun st => (Raise e, st).

Definition bind {A B} (m : M A) (k : A -> M B) : M B :=
  fun st =>
    match m st with
    | (Ok a, st') => k a st'
    | (Raise e, st') => (Raise e, st')
    end.

Definition lift {A} (r : result A) : M A := fun st => (r, st).

Declare Scope py_scope.
Delimit Scope py_scope with py.
Notation "x <- c ;; k" := (bind c (fun x => k))
  (at level 100, c at next level, right associativity) : py_scope.
Notation "c ;;; k" := (bind c (fun _ => k))
  (at level 100, right associativity) : py_scope.
Local Open Scope py_scope.

(** [for x in l: body(x)]: an exception raised by the body leaves the loop. *)
Fixpoint for_each {A} (body : A -> M unit) (l : list A) : M unit :=
  match l with
  | [] => ret tt
  | x :: l' => body x ;;; for_each body l'
  end.

(** ** The collaborators

    What the imported functions and the environment give back.  The answer
    of a collaborator may depend on the calls made so far (a signed URL is
    fresh at each call) and may be an exception. *)
Class Collaborators : Type := {
  DYNAMODB_TABLE : string;
  IMAGES_TOPIC_ARN : string;
  presigned_url : list call -> pyval -> pyval -> pyval -> Z -> string -> result pyval;
  submit_outcome :
    list call -> SubmitContentRequestBody -> TableHandle -> string -> result pyval;
  wsgi_response : list call -> pyval -> pyval -> result pyval;
  mounted_response : list call -> string -> Request -> result HTTPResponse;
  default_error_page : Z -> string
}.

Section ApiRoot.
Context {env : Collaborators}.

Definition logger_info (msg : string) : M unit :=
  fun st => (Ok tt, record_call (LoggerInfo msg) st).

Definition logger_error (msg : string) : M unit :=
  fun st => (Ok tt, record_call (LoggerError msg) st).

Definition logger_exception (msg : string) (exc_info : option pyexn) : M unit :=
  fun st => (Ok tt, record_call (LoggerException msg exc_info) st).

Definition set_response_content_type (ct : string) : M unit :=
  fun st => (Ok tt, {| calls := calls st; response_content_type := ct |}).

Definition get_response_content_type : M string :=
  fun st => (Ok (response_content_type st), st).

Definition create_presigned_url (bucket key version_id : pyval) (expiry : Z)
    (client_method : string) : M pyval :=
  fun st =>
    (presigned_url (calls st) bucket key version_id expiry client_method,
     record_call (CreatePresignedUrl bucket key version_id expiry client_method) st).

Definition submit_from_url (req : SubmitContentRequestBody) (dynamodb_table : TableHandle)
    (images_topic_arn : string) : M pyval :=
  fun st =>
    (submit_outcome (calls st) req dynamodb_table images_topic_arn,
     record_call (SubmitFromUrl req dynamodb_table images_topic_arn) st).

Definition apig_wsgi_handler (event context : pyval) : M pyval :=
  fun st =>
    (wsgi_response (calls st) event context,
     record_call (ApigWsgiHandler event context) st).

(** ** The error handlers, lines 49 to 67 *)

Definition error404 (e : HTTPError) : M pyval :=
  logger_error (error_str e) ;;;
  set_response_content_type "application/json" ;;;
  ret (PStr (json_dumps (PDict [("error", PStr "404")]))).

Definition error405 (e : HTTPError) : M pyval :=
  logger_error (error_str e) ;;;
  set_response_content_type "application/json" ;;;
  ret (PStr (json_dumps (PDict [("error", PStr "405")]))).

Definition error500 (e : HTTPError) : M pyval :=
  logger_exception "Exception raised" (exception e) ;;;
  set_response_content_type "application/json" ;;;
  ret (PStr (json_dumps (PDict [("error", PStr "500")]))).

(** [app.error_handler], filled by the three [@error(code)] decorators. *)
Definition error_handler (code : Z) : option (HTTPError -> M pyval) :=
  if code =? 404 then Some error404
  else if code =? 405 then Some error405
  else if code =? 500 then Some error500
  else None.

(** ** The root route, lines 70 to 74 *)

Definition root : M pyval :=
  ret (PDict [("message", PStr "Hello World, HMA")]).

(** ** The bottle application, as far as the routes of the module need it

    [app.get("/")] adds one static route; the seven [app.mount] calls of
    lines 149 to 197 add a route per prefix that owns every path under it,
    for any method.  bottle tries the mounted routes first, then the routes
    of the request's method ([HEAD] falls back on [GET] and drops the body).
    A path no route has is a 404 and a path only other methods have is a 405;
    an exception of a callback is a 500.  A dict a callback returns is
    printed by [json.dumps] under the content type [application/json]; the
    status of a response is 200 unless an error sets it. *)

Definition default_content_type : string := "text/html; charset=UTF-8".

Definition mounts : list string :=
  ["/action-rules/"; "/matches/"; "/content/"; "/submit/"; "/datasets/";
   "/stats/"; "/actions/"].

Definition static_routes : list (string * string * M pyval) :=
  [("GET", "/", root)].

Definition find_mount (path : string) : option string :=
  find (fun prefix => starts_with prefix path) mounts.

Definition find_static (verb path : string) : option (M pyval) :=
  match find (fun r => String.eqb (fst (fst r)) verb && String.eqb (snd (fst r)) path)
             static_routes with
  | Some r => Some (snd r)
  | None => None
  end.

Definition path_has_route (path : string) : bool :=
  existsb (fun r => String.eqb (snd (fst r)) path) static_routes.

Definition call_mounted (prefix : string) (req : Request) : M HTTPResponse :=
  fun st =>
    (mounted_response (calls st) prefix req, record_call (MountedApp prefix req) st).

Definition app_error (code : Z) (e : HTTPError) : M HTTPResponse :=
  set_response_content_type default_content_type ;;;
  match error_handler code with
  | Some handler =>
      out <- handler e ;;
      ct <- get_response_content_type ;;
      ret {| status_code := code;
             resp_content_type := ct;
             resp_body := match out with PStr s => s | _ => json_dumps out end |}
  | None =>
      ret {| status_code := code;
             resp_content_type := default_content_type;
             resp_body := default_error_page code |}
  end.

(** What bottle makes of the value a callback returns. *)
Definition cast (out : pyval) : M HTTPResponse :=
  match out with
  | PDict _ =>
      set_response_content_type "application/json" ;;;
      ret {| status_code := 200;
             resp_content_type := "application/json";
             resp_body := json_dumps out |}
  | PStr s =>
      ct <- get_response_content_type ;;
      ret {| status_code := 200; resp_content_type := ct; resp_body := s |}
  | PNone =>
      ct <- get_response_content_type ;;
      ret {| status_code := 200; resp_content_type := ct; resp_body := "" |}
  | _ =>
      app_error 500 {| error_str := "Unsupported response type"; exception := None |}
  end.

Definition catch_500 (m : M HTTPResponse) : M HTTPResponse :=
  fun st =>
    match m st with
    | (Ok r, st') => (Ok r, st')
    | (Raise x, st') =>
        app_error 500 {| error_str := "Internal Server Error"; exception := Some x |} st'
    end.

Definition drop_body_of_head (verb : string) (r : HTTPResponse) : HTTPResponse :=
  if String.eqb verb "HEAD"
  then {| status_code := status_code r;
          resp_content_type := resp_content_type r;
          resp_body := "" |}
  else r.

Definition app_call (req : Request) : M HTTPResponse :=
  let verb := request_method req in
  let path := request_path req in
  set_response_content_type default_content_type ;;;
  r <- match find_mount path with
       | Some prefix => catch_500 (call_mounted prefix req)
       | None =>
           match find_static (if String.eqb verb "HEAD" then "GET" else verb) path with
           | Some callback => catch_500 (out <- callback ;; cast out)
           | None =>
               if path_has_route path
               then app_error 405 {| error_str := "Method not allowed."; exception := None |}
               else app_error 404 {| error_str := "Not found: " ++ path; exception := None |}
           end
       end ;;
  ret (drop_body_of_head verb r).

(** ** The dispatcher, lines 77 to 135 *)

Definition is_s3_event (event : pyval) : result bool :=
  match py_in "Records" event with
  | Ok true =>
      match py_getitem event "Records" with
      | Ok records =>
          match py_iter records with
          | Ok l => py_all (fun record => py_in "s3" record) l
          | Raise e => Raise e
          end
      | Raise e => Raise e
      end
  | Ok false => Ok false
  | Raise e => Raise e
  end.

Definition submit_content_request_from_s3_event_record (record : pyval)
    : M SubmitContentRequestBody :=
  b <- lift (py_getitem record "bucket") ;;
  bucket <- lift (py_getitem b "name") ;;
  o <- lift (py_getitem record "object") ;;
  key <- lift (py_getitem o "key") ;;
  p <- lift (py_add bucket (PStr "/")) ;;
  content_id <- lift (py_add p key) ;;
  url <- create_presigned_url bucket key PNone 3600 "get_object" ;;
  ret {| submission_type := "FROM_URL";
         content_id := content_id;
         content_type := "PHOTO";
         content_bytes_url_or_file_type := url;
         additional_fields := PNone |}.

(** The body of the loop of [process_s3_event], lines 103 to 112. *)
Definition process_record (record : pyval) : M unit :=
  record <- lift (py_getitem record "s3") ;;
  o <- lift (py_getitem record "object") ;;
  size <- lift (py_getitem o "size") ;;
  if py_eq_int size 0 then ret tt
  else
    req <- submit_content_request_from_s3_event_record record ;;
    submit_from_url req (Table DYNAMODB_TABLE) IMAGES_TOPIC_ARN ;;;
    logger_info "Sucessfully submitted s3 event record as url upload.".

Definition process_s3_event (event : pyval) : M pyval :=
  records <- lift (py_getitem event "Records") ;;
  l <- lift (py_iter records) ;;
  for_each process_record l ;;;
  ret PNone.

Definition lambda_handler (event context : pyval) : M pyval :=
  s3 <- lift (is_s3_event event) ;;
  if s3 then
    logger_info "Lambda triggered with S3 event. Converting to submit content request." ;;;
    process_s3_event event
  else
    apig_wsgi_handler event context.

End ApiRoot.

(** ** What the claims speak of *)

Definition result_bind {A B} (r : result A) (k : A -> result B) : result B :=
  match r with
  | Ok a => k a
  | Raise e => Raise e
  end.

(** [record["bucket"]["name"]], [record["object"]["key"]] of the record the
    translator gets, and [record["s3"]["object"]["size"]] of an element of
    the batch. *)
Definition record_bucket (record : pyval) : result pyval :=
  result_bind (py_getitem record "bucket") (fun b => py_getitem b "name").

Definition record_key (record : pyval) : result pyval :=
  result_bind (py_getitem record "object") (fun o => py_getitem o "key").

Definition record_size (record : pyval) : result pyval :=
  result_bind (py_getitem record "s3") (fun r =>
  result_bind (py_getitem r "object") (fun o => py_getitem o "size")).

(** The request the translator returns, given the two values it computes. *)
Definition request_for (content_id url : pyval) : SubmitContentRequestBody :=
  {| submission_type := "FROM_URL";
     content_id := content_id;
     content_type := "PHOTO";
     content_bytes_url_or_file_type := url;
     additional_fields := PNone |}.

Definition is_mapping (v : pyval) : bool :=
  match v with
  | PDict _ => true
  | _ => false
  end.

(** The classification rule in the words of the specification: the payload
    has a "Records" collection and every element of it has an "s3" key. *)
Definition spec_is_storage_batch (event : pyval) : bool :=
  match event with
  | PDict d =>
      match dict_get "Records" d with
      | Some (PList l) =>
          forallb (fun r => match r with PDict rd => dict_has "s3" rd | _ => false end) l
      | _ => false
      end
  | _ => false
  end.

(** A payload as the lambda's triggers send it: a mapping whose "Records"
    entry, when there is one, is a list of mappings. *)
Definition well_shaped (event : pyval) : bool :=
  match event with
  | PDict d =>
      match dict_get "Records" d with
      | None => true
      | Some (PList l) => forallb is_mapping l
      | Some _ => false
      end
  | _ => false
  end.

Definition s3_branch `{Collaborators} (event : pyval) : M pyval :=
  (logger_info "Lambda triggered with S3 event. Converting to submit content request." ;;;
   process_s3_event event)%py.

(** The dispatch the specification describes: the storage branch on a
    storage-notification batch, the router's answer on anything else. *)
Definition spec_dispatch `{Collaborators} (event context : pyval) (st : State) : Prop :=
  lambda_handler event context st =
  if spec_is_storage_batch event then s3_branch event st
  else apig_wsgi_handler event context st.

(** The content identifiers submitted to the pipeline, in order. *)
Definition submitted_ids (l : list call) : list pyval :=
  flat_map (fun c => match c with
                     | SubmitFromUrl req _ _ => [content_id req]
                     | _ => []
                     end) l.

Definition unversioned (c : call) : Prop :=
  match c with
  | CreatePresignedUrl _ _ version_id _ _ => version_id = PNone
  | _ => True
  end.

(** A computation only adds calls to the state, and every call to the signer
    it adds names no version. *)
Definition adds_unversioned {A} (m : M A) : Prop :=
  forall st, exists new,
    calls (snd (m st)) = (calls st ++ new)%list /\ Forall unversioned new.

(** The body [{"<field>": "<value>"}] as [json.dumps] prints it. *)
Definition json_object1 (field value : string) : string :=
  "{" ++ dq ++ field ++ dq ++ ": " ++ dq ++ value ++ dq ++ "}".

(** ** Sample collaborators and payloads *)

Definition sample_env : Collaborators := {|
  DYNAMODB_TABLE := "hma-datastore";
  IMAGES_TOPIC_ARN := "arn:aws:sns:us-east-1:1:images";
  presigned_url := fun history bucket key _ expiry _ =>
    match bucket, key with
    | PStr b, PStr k =>
        Ok (PStr ("https://" ++ b ++ ".s3.amazonaws.com/" ++ k ++ "?X-Amz-Expires="
                  ++ string_of_Z expiry ++ "&n=" ++ string_of_Z (Z.of_nat (List.length history))))
    | _, _ => Raise (Raised "ParamValidationError")
    end;
  submit_outcome := fun _ _ _ _ => Ok PNone;
  wsgi_response := fun _ _ _ => Ok (PDict [("statusCode", PInt 200)]);
  mounted_response := fun _ _ _ =>
    Ok {| status_code := 200; resp_content_type := "application/json"; resp_body := "{}" |};
  default_error_page := fun _ => "<!DOCTYPE html>"
|}.

Definition st0 : State :=
  {| calls := []; response_content_type := default_content_type |}.

Definition s3_record (bucket key : string) (size : Z) : pyval :=
  PDict [("s3", PDict [("bucket", PDict [("name", PStr bucket)]);
                       ("object", PDict [("key", PStr key); ("size", PInt size);
                                         ("versionId", PStr "3HL4kqtJvjVBH40Nrjfkd")])])].

Definition inner (record : pyval) : pyval :=
  match py_getitem record "s3" with
  | Ok r => r
  | Raise _ => PNone
  end.

(** A record with no "bucket" entry: the translator raises [KeyError]. *)
Definition malformed_record : pyval :=
  PDict [("s3", PDict [("object", PDict [("key", PStr "b.jpg"); ("size", PInt 77)])])].

Definition batch (l : list pyval) : pyval := PDict [("Records", PList l)].

Definition batch_of_three : pyval :=
  batch [s3_record "imgs" "a.jpg" 1234; malformed_record; s3_record "imgs" "c.jpg" 99].

Definition get_root : Request :=
  {| request_method := "GET"; request_path := "/"; request_query := "";
     request_body := "" |}.

(** ** Accounting for the calls of a batch *)

Definition success_message : string :=
  "Sucessfully submitted s3 event record as url upload.".

Definition dispatch_message : string :=
  "Lambda triggered with S3 event. Converting to submit content request.".

Definition is_sign (c : call) : bool :=
  match c with CreatePresignedUrl _ _ _ _ _ => true | _ => false end.

Definition is_submit (c : call) : bool :=
  match c with SubmitFromUrl _ _ _ => true | _ => false end.

Definition is_success_log (c : call) : bool :=
  match c with LoggerInfo msg => String.eqb msg success_message | _ => false end.

Definition count_calls (p : call -> bool) (l : list call) : nat :=
  List.length (filter p l).

(** The calls the storage branch can make: to the signer, to the pipeline
    and to [logger.info]. *)
Definition storage_call (c : call) : Prop :=
  match c with
  | CreatePresignedUrl _ _ _ _ _ | SubmitFromUrl _ _ _ | LoggerInfo _ => True
  | _ => False
  end.

(** A computation only adds calls that satisfy [P] and leaves the content
    type of the response alone. *)
Definition adds_only (P : call -> Prop) {A} (m : M A) : Prop :=
  forall st, exists new,
    calls (snd (m st)) = (calls st ++ new)%list /\ Forall P new /\
    response_content_type (snd (m st)) = response_content_type st.

(** The calls of a loop body or loop are accounted for: when it returns,
    there are as many signed URLs as submissions as success lines; when it
    raises, at most one URL was signed without its success line, and a
    submission never lacks its URL. *)
Definition accounted {A} (m : M A) : Prop :=
  forall st, exists new,
    calls (snd (m st)) = (calls st ++ new)%list /\
    match fst (m st) with
    | Ok _ =>
        count_calls is_sign new = count_calls is_submit new /\
        count_calls is_submit new = count_calls is_success_log new
    | Raise _ =>
        (count_calls is_success_log new <= count_calls is_submit new)%nat /\
        (count_calls is_submit new <= count_calls is_sign new)%nat /\
        (count_calls is_sign new <= S (count_calls is_success_log new))%nat
    end.

(** The record can be handled: its size is there and is zero, or its bucket
    name and key are strings. *)
Definition processable (record : pyval) : bool :=
  match record_size record with
  | Ok size =>
      py_eq_int size 0 ||
      match record_bucket (inner record), record_key (inner record) with
      | Ok (PStr _), Ok (PStr _) => true
      | _, _ => false
      end
  | Raise _ => false
  end.

(** The content identifiers a processable record leads to: none when its
    size is zero, one otherwise. *)
Definition expected_ids (record : pyval) : list pyval :=
  match record_size record with
  | Ok size =>
      if py_eq_int size 0 then []
      else
        match record_bucket (inner record), record_key (inner record) with
        | Ok (PStr B), Ok (PStr K) => [PStr (B ++ "/" ++ K)]
        | _, _ => []
        end
  | Raise _ => []
  end.

Definition request_to (verb path : string) : Request :=
  {| request_method := verb; request_path := path; request_query := "";
     request_body := "" |}.

(** Collaborators that fail: a signer and a pipeline that raise on every
    call. *)
Definition failing_signer_env : Collaborators := {|
  DYNAMODB_TABLE := "hma-datastore";
  IMAGES_TOPIC_ARN := "arn:aws:sns:us-east-1:1:images";
  presigned_url := fun _ _ _ _ _ _ => Raise (Raised "EndpointConnectionError");
  submit_outcome := fun _ _ _ _ => Ok PNone;
  wsgi_response := fun _ _ _ => Ok (PDict [("statusCode", PInt 200)]);
  mounted_response := fun _ _ _ =>
    Ok {| status_code := 200; resp_content_type := "application/json"; resp_body := "{}" |};
  default_error_page := fun _ => "<!DOCTYPE html>"
|}.

Definition failing_pipeline_env : Collaborators := {|
  DYNAMODB_TABLE := "hma-datastore";
  IMAGES_TOPIC_ARN := "arn:aws:sns:us-east-1:1:images";
  presigned_url := fun _ _ _ _ _ _ => Ok (PStr "https://signed.example/object");
  submit_outcome := fun _ _ _ _ => Raise (Raised "ClientError");
  wsgi_response := fun _ _ _ => Ok (PDict [("statusCode", PInt 200)]);
  mounted_response := fun _ _ _ =>
    Ok {| status_code := 200; resp_content_type := "application/json"; resp_body := "{}" |};
  default_error_page := fun _ => "<!DOCTYPE html>"
|}.

(** * Properties *)

Section Properties.
Context {env : Collaborators}.

(** ** The monad and the loop *)

Lemma bind_ok {A B} (m : M A) (k : A -> M B) st a st' :
  m st = (Ok a, st') -> bind m k st = k a st'.
Proof. intros E. unfold bind. now rewrite E. Qed.

Lemma bind_raise {A B} (m : M A) (k : A -> M B) st e st' :
  m st = (Raise e, st') -> bind m k st = (Raise e, st').
Proof. intros E. unfold bind. now rewrite E. Qed.

Lemma for_each_app {A} (body : A -> M unit) (l1 l2 : list A) st :
  for_each body (l1 ++ l2) st = bind (for_each body l1) (fun _ => for_each body l2) st.
Proof.
  revert st. induction l1 as [|x l1 IH]; intros st; simpl.
  - reflexivity.
  - unfold bind in *.
    destruct (body x st) as [[[]|e] st']; [apply IH | reflexivity].
Qed.

Lemma for_each_skip {A} (body : A -> M unit) (l1 l2 : list A) (x : A) :
  (forall st, body x st = (Ok tt, st)) ->
  forall st, for_each body (l1 ++ x :: l2) st = for_each body (l1 ++ l2) st.
Proof.
  intros Hx st. rewrite !for_each_app. unfold bind.
  destruct (for_each body l1 st) as [[[]|e] st']; [|reflexivity].
  simpl. unfold bind. now rewrite Hx.
Qed.

Lemma for_each_abort {A} (body : A -> M unit) (l1 l2 : list A) (x : A) st st1 st2 e :
  for_each body l1 st = (Ok tt, st1) ->
  body x st1 = (Raise e, st2) ->
  for_each body (l1 ++ x :: l2) st = (Raise e, st2).
Proof.
  intros H1 Hx. rewrite for_each_app. rewrite (bind_ok _ _ _ _ _ H1).
  simpl. now apply bind_raise.
Qed.

(** ** The classifier *)

Lemma all_s3_of_mappings (l : list pyval) :
  forallb is_mapping l = true ->
  py_all (fun record => py_in "s3" record) l =
  Ok (forallb (fun r => match r with PDict rd => dict_has "s3" rd | _ => false end) l).
Proof.
  induction l as [|r l IH]; simpl; intros H.
  - reflexivity.
  - apply andb_true_iff in H. destruct H as [Hr Hl].
    destruct r; try discriminate. simpl.
    destruct (dict_has "s3" d); simpl; [now apply IH | reflexivity].
Qed.

Lemma is_s3_event_well_shaped (event : pyval) :
  well_shaped event = true -> is_s3_event event = Ok (spec_is_storage_batch event).
Proof.
  destruct event as [| | | | |d]; try discriminate. simpl.
  unfold is_s3_event, py_in, py_getitem, dict_has.
  destruct (dict_get "Records" d) as [v|] eqn:E; simpl; [|reflexivity].
  destruct v; try discriminate. simpl. apply all_s3_of_mappings.
Qed.

(** C1, amended: on a payload that is a mapping whose "Records" entry, when
    present, is a list of mappings, [is_s3_event] answers what the
    classification rule says, and [lambda_handler] runs the storage branch
    when the rule holds and otherwise returns what the router returns for the
    unchanged payload and context. *)
Theorem handler_dispatch_on_well_shaped (event context : pyval) (st : State) :
  well_shaped event = true ->
  is_s3_event event = Ok (spec_is_storage_batch event) /\
  spec_dispatch event context st.
Proof.
  intros W. pose proof (is_s3_event_well_shaped event W) as E.
  split; [exact E|].
  unfold spec_dispatch, lambda_handler, s3_branch, bind, lift. rewrite E.
  destruct (spec_is_storage_batch event); reflexivity.
Qed.

(** C7: a payload whose "Records" entry is the empty list is classified as a
    storage-notification batch, and handling it runs the loop zero times: the
    handler returns [None] and the only call made is the log line of the
    dispatcher, so nothing is signed and nothing is submitted. *)
Theorem empty_batch_is_noop (d : list (string * pyval)) (context : pyval) (st : State) :
  dict_get "Records" d = Some (PList []) ->
  is_s3_event (PDict d) = Ok true /\
  process_s3_event (PDict d) st = (Ok PNone, st) /\
  lambda_handler (PDict d) context st =
    (Ok PNone,
     record_call
       (LoggerInfo "Lambda triggered with S3 event. Converting to submit content request.")
       st).
Proof.
  intros E.
  assert (Hs : is_s3_event (PDict d) = Ok true).
  { unfold is_s3_event, py_in, py_getitem, dict_has. rewrite E. reflexivity. }
  assert (Hp : forall s, process_s3_event (PDict d) s = (Ok PNone, s)).
  { intros s. unfold process_s3_event, bind, lift, py_getitem. rewrite E. reflexivity. }
  repeat split; [exact Hs | apply Hp |].
  unfold lambda_handler, bind, lift. rewrite Hs. unfold logger_info. apply Hp.
Qed.

(** C2, amended: the loop has no exception handler, so a record that fails
    ends the batch.  When the records before it are processed and the record
    raises [e], [process_s3_event] raises [e] in the state the failing record
    left: the records before it were handled, the records after it are never
    looked at. *)
Theorem failing_record_aborts_batch (event : pyval) (pre post : list pyval)
    (bad : pyval) (e : pyexn) (st st1 st2 : State) :
  py_getitem event "Records" = Ok (PList (pre ++ bad :: post)) ->
  for_each process_record pre st = (Ok tt, st1) ->
  process_record bad st1 = (Raise e, st2) ->
  process_s3_event event st = (Raise e, st2).
Proof.
  intros HR Hpre Hbad. unfold process_s3_event.
  unfold bind at 1. unfold lift at 1. rewrite HR.
  unfold bind at 1. unfold lift at 1. simpl py_iter.
  apply bind_raise. now apply for_each_abort with (st1 := st1).
Qed.

Lemma zero_size_skipped (record size : pyval) (st : State) :
  record_size record = Ok size -> py_eq_int size 0 = true ->
  process_record record st = (Ok tt, st).
Proof.
  unfold record_size, result_bind, process_record, bind, lift.
  destruct (py_getitem record "s3") as [r|]; [|discriminate].
  destruct (py_getitem r "object") as [o|]; [|discriminate].
  intros -> ->. reflexivity.
Qed.

(** C4: a record whose object size equals zero is skipped: its loop body
    returns without a call to the translator, the signer, the pipeline or the
    log and leaves the state as it was; so a batch with the record handles
    exactly as the batch without it, wherever and however often it occurs. *)
Theorem zero_size_record_is_skipped (record size : pyval) :
  record_size record = Ok size ->
  py_eq_int size 0 = true ->
  (forall st, process_record record st = (Ok tt, st)) /\
  (forall pre post st,
      process_s3_event (batch (pre ++ record :: post)) st =
      process_s3_event (batch (pre ++ post)) st) /\
  (forall pre post st,
      process_s3_event (batch (pre ++ record :: record :: post)) st =
      process_s3_event (batch (pre ++ record :: post)) st).
Proof.
  intros Hs Hz.
  assert (Hskip : forall st, process_record record st = (Ok tt, st))
    by (intros st; now apply zero_size_skipped with (size := size)).
  assert (Hb : forall pre post st,
             process_s3_event (batch (pre ++ record :: post)) st =
             process_s3_event (batch (pre ++ post)) st).
  { intros pre post st. unfold process_s3_event, batch, bind, lift. simpl.
    now rewrite for_each_skip. }
  repeat split; [exact Hskip | exact Hb |].
  intros pre post st. apply Hb.
Qed.

(** ** The translator *)

(** The translator, step by step: the two lookups, the two concatenations,
    then the one call to the signer. *)
Lemma translator_cases (record : pyval) (st : State) :
  submit_content_request_from_s3_event_record record st =
  match record_bucket record with
  | Raise e => (Raise e, st)
  | Ok bucket =>
      match record_key record with
      | Raise e => (Raise e, st)
      | Ok key =>
          match result_bind (py_add bucket (PStr "/")) (fun p => py_add p key) with
          | Raise e => (Raise e, st)
          | Ok cid =>
              (match presigned_url (calls st) bucket key PNone 3600 "get_object" with
               | Ok url => Ok (request_for cid url)
               | Raise e => Raise e
               end,
               record_call (CreatePresignedUrl bucket key PNone 3600 "get_object") st)
          end
      end
  end.
Proof.
  unfold submit_content_request_from_s3_event_record, record_bucket, record_key,
    result_bind, bind, lift.
  destruct (py_getitem record "bucket") as [b|]; [|reflexivity].
  destruct (py_getitem b "name") as [bucket|]; [|reflexivity].
  destruct (py_getitem record "object") as [o|]; [|reflexivity].
  destruct (py_getitem o "key") as [key|]; [|reflexivity].
  destruct (py_add bucket (PStr "/")) as [p0|]; [|reflexivity].
  destruct (py_add p0 key) as [cid|]; [|reflexivity].
  unfold create_presigned_url, ret, request_for.
  destruct (presigned_url (calls st) bucket key PNone 3600 "get_object"); reflexivity.
Qed.

Lemma append_slash (B K : string) : ((B ++ "/") ++ K = B ++ "/" ++ K)%string.
Proof. induction B as [|c B IH]; simpl; [reflexivity | now rewrite IH]. Qed.

Lemma translator_on_strings (record : pyval) (B K : string) (st : State) :
  record_bucket record = Ok (PStr B) ->
  record_key record = Ok (PStr K) ->
  submit_content_request_from_s3_event_record record st =
  (match presigned_url (calls st) (PStr B) (PStr K) PNone 3600 "get_object" with
   | Ok url => Ok (request_for (PStr (B ++ "/" ++ K)) url)
   | Raise e => Raise e
   end,
   record_call (CreatePresignedUrl (PStr B) (PStr K) PNone 3600 "get_object") st).
Proof.
  intros HB HK. rewrite translator_cases, HB, HK. simpl.
  now rewrite append_slash.
Qed.

(** ** Content identifiers *)

Lemma append_inv_head (p a b : string) : (p ++ a = p ++ b)%string -> a = b.
Proof.
  induction p as [|c p IH]; simpl; intros H; [exact H|].
  injection H as H. now apply IH.
Qed.

Lemma slash_split_unique (B1 B2 K1 K2 : string) :
  has_char "/" B1 = false -> has_char "/" B2 = false ->
  (B1 ++ "/" ++ K1 = B2 ++ "/" ++ K2)%string ->
  B1 = B2 /\ K1 = K2.
Proof.
  revert B2. induction B1 as [|a B1 IH]; intros [|b B2]; simpl; intros H1 H2 E.
  - injection E as E. now split.
  - injection E as Eb _. subst b. discriminate.
  - injection E as Ea _. subst a. discriminate.
  - injection E as Eab E. subst b.
    apply orb_false_iff in H1. apply orb_false_iff in H2.
    destruct (IH B2 (proj2 H1) (proj2 H2) E) as [-> ->]. now split.
Qed.

(** C3, amended: for records with bucket [B] and key [K] the request the
    translator builds has the content identifier [B ++ "/" ++ K]; two records
    that differ in bucket or key get distinct identifiers when the bucket is
    the same or when neither bucket name contains a slash. *)
Theorem content_id_derivation (r1 r2 : pyval) (B1 K1 B2 K2 : string)
    (url1 url2 : pyval) (st1 st2 : State) :
  record_bucket r1 = Ok (PStr B1) -> record_key r1 = Ok (PStr K1) ->
  record_bucket r2 = Ok (PStr B2) -> record_key r2 = Ok (PStr K2) ->
  presigned_url (calls st1) (PStr B1) (PStr K1) PNone 3600 "get_object" = Ok url1 ->
  presigned_url (calls st2) (PStr B2) (PStr K2) PNone 3600 "get_object" = Ok url2 ->
  exists q1 q2 st1' st2',
    submit_content_request_from_s3_event_record r1 st1 = (Ok q1, st1') /\
    submit_content_request_from_s3_event_record r2 st2 = (Ok q2, st2') /\
    content_id q1 = PStr (B1 ++ "/" ++ K1) /\
    content_id q2 = PStr (B2 ++ "/" ++ K2) /\
    ((B1 = B2 \/ (has_char "/" B1 = false /\ has_char "/" B2 = false)) ->
     (B1, K1) <> (B2, K2) ->
     content_id q1 <> content_id q2).
Proof.
  intros HB1 HK1 HB2 HK2 U1 U2.
  exists (request_for (PStr (B1 ++ "/" ++ K1)) url1),
         (request_for (PStr (B2 ++ "/" ++ K2)) url2).
  do 2 eexists.
  rewrite (translator_on_strings r1 B1 K1 st1 HB1 HK1), U1.
  rewrite (translator_on_strings r2 B2 K2 st2 HB2 HK2), U2.
  repeat split. simpl. intros Hdom Hne Heq. apply Hne.
  injection Heq as Heq. destruct Hdom as [->|[S1 S2]].
  - apply append_inv_head in Heq. simpl in Heq. injection Heq as ->. reflexivity.
  - destruct (slash_split_unique _ _ _ _ S1 S2 Heq) as [-> ->]. reflexivity.
Qed.

(** C5: for a record with a bucket name [B] and an object key [K], both
    strings, the translator calls the signer once, for [B], [K], no version,
    3600 seconds and the operation [get_object], whatever else the record
    holds; when the signer answers a URL the translator returns the request
    with submission type [FROM_URL], content type [PHOTO], that URL as the
    content reference and no additional fields. *)
Theorem translator_builds_url_submission (record : pyval) (B K : string) (st : State) :
  record_bucket record = Ok (PStr B) ->
  record_key record = Ok (PStr K) ->
  submit_content_request_from_s3_event_record record st =
  (match presigned_url (calls st) (PStr B) (PStr K) PNone 3600 "get_object" with
   | Ok url =>
       Ok {| submission_type := "FROM_URL";
             content_id := PStr (B ++ "/" ++ K);
             content_type := "PHOTO";
             content_bytes_url_or_file_type := url;
             additional_fields := PNone |}
   | Raise e => Raise e
   end,
   record_call (CreatePresignedUrl (PStr B) (PStr K) PNone 3600 "get_object") st).
Proof. apply translator_on_strings. Qed.

(** C10: two records that agree on [record["bucket"]["name"]] and on
    [record["object"]["key"]] are translated alike: from the same state the
    translator does the same on both, and from any two states the requests
    it returns agree on content identifier, submission type, content type and
    additional fields. *)
Theorem translator_reads_bucket_and_key_only (r1 r2 : pyval) :
  record_bucket r1 = record_bucket r2 ->
  record_key r1 = record_key r2 ->
  (forall st,
      submit_content_request_from_s3_event_record r1 st =
      submit_content_request_from_s3_event_record r2 st) /\
  (forall st1 st2 q1 q2 st1' st2',
      submit_content_request_from_s3_event_record r1 st1 = (Ok q1, st1') ->
      submit_content_request_from_s3_event_record r2 st2 = (Ok q2, st2') ->
      content_id q1 = content_id q2 /\
      submission_type q1 = submission_type q2 /\
      content_type q1 = content_type q2 /\
      additional_fields q1 = additional_fields q2).
Proof.
  intros HB HK. split.
  - intros st. now rewrite !translator_cases, HB, HK.
  - intros st1 st2 q1 q2 st1' st2'. rewrite !translator_cases, HB, HK.
    destruct (record_bucket r2) as [bucket|]; [|discriminate].
    destruct (record_key r2) as [key|]; [|discriminate].
    destruct (result_bind _ _) as [cid|]; [|discriminate].
    destruct (presigned_url (calls st1) _ _ _ _ _); [|discriminate].
    destruct (presigned_url (calls st2) _ _ _ _ _); [|discriminate].
    intros E1 E2. injection E1 as <- _. injection E2 as <- _.
    repeat split.
Qed.

(** ** The calls to the signer *)

Lemma adds_ret {A} (a : A) : adds_unversioned (ret a).
Proof. intros st. exists []. simpl. now rewrite app_nil_r. Qed.

Lemma adds_lift {A} (r : result A) : adds_unversioned (lift r).
Proof. intros st. exists []. simpl. now rewrite app_nil_r. Qed.

Lemma adds_bind {A B} (m : M A) (k : A -> M B) :
  adds_unversioned m -> (forall a, adds_unversioned (k a)) -> adds_unversioned (bind m k).
Proof.
  intros Hm Hk st. unfold bind. destruct (Hm st) as [n1 [E1 F1]].
  destruct (m st) as [[a|e] st1]; simpl in E1.
  - destruct (Hk a st1) as [n2 [E2 F2]]. exists (n1 ++ n2)%list.
    rewrite E2, E1, app_assoc. split; [reflexivity | now apply Forall_app].
  - exists n1. now split.
Qed.

Lemma adds_if {A} (b : bool) (m1 m2 : M A) :
  adds_unversioned m1 -> adds_unversioned m2 -> adds_unversioned (if b then m1 else m2).
Proof. now destruct b. Qed.

Lemma adds_logger_info (msg : string) : adds_unversioned (logger_info msg).
Proof. intros st. exists [LoggerInfo msg]. simpl. split; [reflexivity | now repeat constructor]. Qed.

Lemma adds_submit_from_url req t a : adds_unversioned (submit_from_url req t a).
Proof.
  intros st. exists [SubmitFromUrl req t a]. simpl.
  split; [reflexivity | now repeat constructor].
Qed.

Lemma adds_create_presigned_url bucket key expiry client_method :
  adds_unversioned (create_presigned_url bucket key PNone expiry client_method).
Proof.
  intros st. exists [CreatePresignedUrl bucket key PNone expiry client_method]. simpl.
  split; [reflexivity | now repeat constructor].
Qed.

Lemma adds_for_each {A} (body : A -> M unit) (l : list A) :
  (forall x, adds_unversioned (body x)) -> adds_unversioned (for_each body l).
Proof.
  intros Hb. induction l as [|x l IH]; simpl.
  - apply adds_ret.
  - apply adds_bind; [apply Hb | intros _; exact IH].
Qed.

Create HintDb signer_calls.
#[local] Hint Resolve adds_ret adds_lift adds_logger_info adds_submit_from_url
  adds_create_presigned_url : signer_calls.

Ltac step_calls :=
  repeat (first [ apply adds_bind; [| intro ] | apply adds_if ]);
  auto with signer_calls.

Lemma adds_translator (record : pyval) :
  adds_unversioned (submit_content_request_from_s3_event_record record).
Proof. unfold submit_content_request_from_s3_event_record. step_calls. Qed.

Lemma adds_process_record (record : pyval) : adds_unversioned (process_record record).
Proof. unfold process_record. step_calls. Qed.

(** C9: the one call the translator makes to the signer passes [None] as the
    version identifier, whatever the record holds (a "versionId" entry of the
    notification is never read): the translator either makes no call or adds
    exactly the call for (bucket, key, None, 3600, "get_object"), and every
    call to the signer made while a batch is processed names no version. *)
Theorem signer_is_called_without_version :
  (forall record st,
      let st' := snd (submit_content_request_from_s3_event_record record st) in
      calls st' = calls st \/
      exists bucket key,
        calls st' =
        (calls st ++ [CreatePresignedUrl bucket key PNone 3600 "get_object"])%list) /\
  (forall event, adds_unversioned (process_s3_event event)).
Proof.
  split.
  - intros record st. cbv zeta. rewrite translator_cases.
    destruct (record_bucket record) as [bucket|]; [|now left].
    destruct (record_key record) as [key|]; [|now left].
    destruct (result_bind _ _); [|now left].
    right. exists bucket, key. reflexivity.
  - intros event. unfold process_s3_event. step_calls.
    apply adds_for_each. exact adds_process_record.
Qed.

(** ** The HTTP side *)

(** C6: for each of the codes 404, 405 and 500 a handler is registered; for
    every error value it returns the text [{"error": "<code>"}] and leaves
    [application/json] as the content type of the response, and the response
    bottle builds from it has that status, content type and body. *)
Theorem error_handlers_return_json (code : Z) (e : HTTPError) (st : State) :
  code = 404 \/ code = 405 \/ code = 500 ->
  exists handler,
    error_handler code = Some handler /\
    fst (handler e st) = Ok (PStr (json_object1 "error" (string_of_Z code))) /\
    response_content_type (snd (handler e st)) = "application/json" /\
    fst (app_error code e st) =
      Ok {| status_code := code;
            resp_content_type := "application/json";
            resp_body := json_object1 "error" (string_of_Z code) |}.
Proof.
  intros [-> | [-> | ->]]; eexists; (split; [reflexivity|]); repeat split.
Qed.

(** C8: every GET request for the path "/" is answered by the root route: the
    response has status 200 and the body [{"message": "Hello World, HMA"}],
    as JSON, and no collaborator is called. *)
Theorem get_root_returns_greeting (req : Request) (st : State) :
  request_method req = "GET" ->
  request_path req = "/" ->
  fst (root st) = Ok (PDict [("message", PStr "Hello World, HMA")]) /\
  app_call req st =
    (Ok {| status_code := 200;
           resp_content_type := "application/json";
           resp_body := json_object1 "message" "Hello World, HMA" |},
     {| calls := calls st; response_content_type := "application/json" |}).
Proof.
  intros Hm Hp. split; [reflexivity|].
  unfold app_call. rewrite Hm, Hp. reflexivity.
Qed.

End Properties.

(** * The properties at sample payloads *)

(** C1 as stated fails: on [{"Records": [5]}] the test ["s3" in record] of
    the classifier raises [TypeError]; the handler neither runs the storage
    branch nor hands the payload to the router. *)
Lemma non_mapping_record_raises :
  @lambda_handler sample_env (batch [PInt 5]) PNone st0 = (Raise TypeError, st0) /\
  spec_is_storage_batch (batch [PInt 5]) = false /\
  ~ @spec_dispatch sample_env (batch [PInt 5]) PNone st0.
Proof.
  split; [reflexivity | split; [reflexivity |]].
  unfold spec_dispatch. vm_compute. discriminate.
Qed.

Lemma handler_dispatch_on_well_shaped_witness :
  well_shaped batch_of_three = true /\
  is_s3_event batch_of_three = Ok (spec_is_storage_batch batch_of_three) /\
  @spec_dispatch sample_env batch_of_three PNone st0.
Proof.
  split; [reflexivity |].
  apply (@handler_dispatch_on_well_shaped sample_env batch_of_three PNone st0).
  reflexivity.
Defined.

(** C2 as stated fails: in the batch of three whose second record has no
    "bucket" entry, the translator raises [KeyError] on the second record,
    the handler raises it too, and the only submission is the one of the
    first record; the third record, which is submitted when it comes alone,
    is not. *)
Lemma third_record_not_submitted :
  let out := @lambda_handler sample_env batch_of_three PNone st0 in
  fst (@submit_content_request_from_s3_event_record sample_env (inner malformed_record) st0)
    = Raise (KeyError "bucket") /\
  submitted_ids
    (calls (snd (@lambda_handler sample_env (batch [s3_record "imgs" "c.jpg" 99]) PNone st0)))
    = [PStr "imgs/c.jpg"] /\
  fst out = Raise (KeyError "bucket") /\
  submitted_ids (calls (snd out)) = [PStr "imgs/a.jpg"] /\
  ~ (In (PStr "imgs/a.jpg") (submitted_ids (calls (snd out))) /\
     In (PStr "imgs/c.jpg") (submitted_ids (calls (snd out)))).
Proof.
  cbv zeta. repeat (split; [reflexivity |]).
  vm_compute. intros [_ [H | []]]. discriminate H.
Qed.

Lemma failing_record_aborts_batch_witness :
  let pre := [s3_record "imgs" "a.jpg" 1234] in
  let post := [s3_record "imgs" "c.jpg" 99] in
  let st1 := snd (@for_each pyval (@process_record sample_env) pre st0) in
  py_getitem batch_of_three "Records" = Ok (PList (pre ++ malformed_record :: post)) /\
  @for_each pyval (@process_record sample_env) pre st0 = (Ok tt, st1) /\
  @process_record sample_env malformed_record st1 = (Raise (KeyError "bucket"), st1) /\
  @process_s3_event sample_env batch_of_three st0 = (Raise (KeyError "bucket"), st1).
Proof.
  cbv zeta. repeat (split; [reflexivity |]).
  apply (@failing_record_aborts_batch sample_env batch_of_three
           [s3_record "imgs" "a.jpg" 1234] [s3_record "imgs" "c.jpg" 99]
           malformed_record (KeyError "bucket") st0
           (snd (@for_each pyval (@process_record sample_env)
                   [s3_record "imgs" "a.jpg" 1234] st0))); reflexivity.
Defined.

(** C3 as stated fails: bucket "a/b" with key "c" and bucket "a" with key
    "b/c" differ in both fields and get the same content identifier. *)
Lemma content_id_collision :
  let r1 := inner (s3_record "a/b" "c" 10) in
  let r2 := inner (s3_record "a" "b/c" 10) in
  record_bucket r1 <> record_bucket r2 /\
  record_key r1 <> record_key r2 /\
  exists q1 q2 s1 s2,
    @submit_content_request_from_s3_event_record sample_env r1 st0 = (Ok q1, s1) /\
    @submit_content_request_from_s3_event_record sample_env r2 st0 = (Ok q2, s2) /\
    content_id q1 = PStr "a/b/c" /\
    content_id q2 = PStr "a/b/c".
Proof.
  cbv zeta. split; [vm_compute; discriminate |]. split; [vm_compute; discriminate |].
  do 4 eexists. repeat split; vm_compute; reflexivity.
Qed.

Lemma content_id_derivation_witness :
  let r1 := inner (s3_record "imgs" "a.jpg" 1234) in
  let r2 := inner (s3_record "thumbs" "a.jpg" 1234) in
  exists q1 q2 st1' st2',
    @submit_content_request_from_s3_event_record sample_env r1 st0 = (Ok q1, st1') /\
    @submit_content_request_from_s3_event_record sample_env r2 st0 = (Ok q2, st2') /\
    content_id q1 = PStr "imgs/a.jpg" /\
    content_id q2 = PStr "thumbs/a.jpg" /\
    (("imgs" = "thumbs" \/ (has_char "/" "imgs" = false /\ has_char "/" "thumbs" = false)) ->
     ("imgs", "a.jpg") <> ("thumbs", "a.jpg") ->
     content_id q1 <> content_id q2).
Proof.
  cbv zeta.
  apply (@content_id_derivation sample_env
           (inner (s3_record "imgs" "a.jpg" 1234)) (inner (s3_record "thumbs" "a.jpg" 1234))
           "imgs" "a.jpg" "thumbs" "a.jpg"
           (PStr "https://imgs.s3.amazonaws.com/a.jpg?X-Amz-Expires=3600&n=0")
           (PStr "https://thumbs.s3.amazonaws.com/a.jpg?X-Amz-Expires=3600&n=0")
           st0 st0); reflexivity.
Defined.

Lemma zero_size_record_is_skipped_witness :
  let folder := s3_record "imgs" "uploads/" 0 in
  record_size folder = Ok (PInt 0) /\
  py_eq_int (PInt 0) 0 = true /\
  (forall st, @process_record sample_env folder st = (Ok tt, st)) /\
  (forall pre post st,
      @process_s3_event sample_env (batch (pre ++ folder :: post)) st =
      @process_s3_event sample_env (batch (pre ++ post)) st) /\
  (forall pre post st,
      @process_s3_event sample_env (batch (pre ++ folder :: folder :: post)) st =
      @process_s3_event sample_env (batch (pre ++ folder :: post)) st).
Proof.
  cbv zeta. repeat (split; [reflexivity |]).
  apply (@zero_size_record_is_skipped sample_env (s3_record "imgs" "uploads/" 0) (PInt 0));
    reflexivity.
Defined.

Lemma translator_builds_url_submission_witness :
  let r := inner (s3_record "imgs" "a.jpg" 1234) in
  record_bucket r = Ok (PStr "imgs") /\
  record_key r = Ok (PStr "a.jpg") /\
  @submit_content_request_from_s3_event_record sample_env r st0 =
  (Ok {| submission_type := "FROM_URL";
         content_id := PStr "imgs/a.jpg";
         content_type := "PHOTO";
         content_bytes_url_or_file_type :=
           PStr "https://imgs.s3.amazonaws.com/a.jpg?X-Amz-Expires=3600&n=0";
         additional_fields := PNone |},
   record_call (CreatePresignedUrl (PStr "imgs") (PStr "a.jpg") PNone 3600 "get_object") st0).
Proof.
  cbv zeta. repeat (split; [reflexivity |]).
  apply (@translator_builds_url_submission sample_env
           (inner (s3_record "imgs" "a.jpg" 1234)) "imgs" "a.jpg" st0); reflexivity.
Defined.

Lemma translator_reads_bucket_and_key_only_witness :
  let r1 := inner (s3_record "imgs" "a.jpg" 1234) in
  let r2 := PDict [("object", PDict [("size", PInt 5); ("key", PStr "a.jpg")]);
                   ("bucket", PDict [("arn", PStr "arn:aws:s3:::imgs"); ("name", PStr "imgs")])] in
  record_bucket r1 = record_bucket r2 /\
  record_key r1 = record_key r2 /\
  r1 <> r2 /\
  (forall st,
      @submit_content_request_from_s3_event_record sample_env r1 st =
      @submit_content_request_from_s3_event_record sample_env r2 st).
Proof.
  cbv zeta. repeat (split; [reflexivity |]). split; [discriminate |].
  apply (@translator_reads_bucket_and_key_only sample_env); reflexivity.
Defined.

Lemma error_handlers_return_json_witness :
  (404 = 404 \/ 404 = 405 \/ 404 = 500) /\
  exists handler,
    error_handler 404 = Some handler /\
    fst (handler {| error_str := "Not found: /unknown/"; exception := None |} st0) =
      Ok (PStr (json_object1 "error" "404")) /\
    response_content_type
      (snd (handler {| error_str := "Not found: /unknown/"; exception := None |} st0)) =
      "application/json" /\
    fst (@app_error sample_env 404
           {| error_str := "Not found: /unknown/"; exception := None |} st0) =
      Ok {| status_code := 404;
            resp_content_type := "application/json";
            resp_body := json_object1 "error" "404" |}.
Proof.
  split; [now left |].
  apply (@error_handlers_return_json sample_env 404
           {| error_str := "Not found: /unknown/"; exception := None |} st0).
  now left.
Defined.

Lemma empty_batch_is_noop_witness :
  dict_get "Records" [("Records", PList [])] = Some (PList []) /\
  is_s3_event (batch []) = Ok true /\
  @process_s3_event sample_env (batch []) st0 = (Ok PNone, st0) /\
  @lambda_handler sample_env (batch []) PNone st0 =
    (Ok PNone,
     record_call
       (LoggerInfo "Lambda triggered with S3 event. Converting to submit content request.")
       st0).
Proof.
  split; [reflexivity |].
  apply (@empty_batch_is_noop sample_env [("Records", PList [])] PNone st0). reflexivity.
Defined.

Lemma get_root_returns_greeting_witness :
  request_method get_root = "GET" /\
  request_path get_root = "/" /\
  fst (root st0) = Ok (PDict [("message", PStr "Hello World, HMA")]) /\
  @app_call sample_env get_root st0 =
    (Ok {| status_code := 200;
           resp_content_type := "application/json";
           resp_body := json_object1 "message" "Hello World, HMA" |},
     {| calls := []; response_content_type := "application/json" |}).
Proof.
  repeat (split; [reflexivity |]).
  apply (@get_root_returns_greeting sample_env get_root st0); reflexivity.
Defined.

(** * Further properties of the module *)

Section Classifier.
Context {env : Collaborators}.

Lemma py_in_raises_type_error (k : string) (v : pyval) (e : pyexn) :
  py_in k v = Raise e -> e = TypeError.
Proof. destruct v; simpl; intros H; try discriminate; now injection H as <-. Qed.

Lemma py_all_in_outcomes (l : list pyval) :
  py_all (fun record => py_in "s3" record) l = Ok true \/
  py_all (fun record => py_in "s3" record) l = Ok false \/
  py_all (fun record => py_in "s3" record) l = Raise TypeError.
Proof.
  induction l as [|x l IH]; simpl; [now left |].
  destruct (py_in "s3" x) as [[|]|e] eqn:E; [exact IH | now right; left |].
  apply py_in_raises_type_error in E. subst e. now right; right.
Qed.

Lemma py_all_true (f : pyval -> result bool) (l : list pyval) :
  py_all f l = Ok true -> Forall (fun x => f x = Ok true) l.
Proof.
  induction l as [|x l IH]; simpl; intros H; [constructor |].
  destruct (f x) as [[|]|e] eqn:E; try discriminate.
  constructor; [exact E | now apply IH].
Qed.

Lemma py_all_first_false (f : pyval -> result bool) (pre post : list pyval) (x : pyval) :
  Forall (fun y => f y = Ok true) pre -> f x = Ok false ->
  py_all f (pre ++ x :: post) = Ok false.
Proof.
  intros Hpre Hx. induction Hpre as [|y pre Hy _ IH]; simpl.
  - now rewrite Hx.
  - now rewrite Hy.
Qed.

(** X1: the classifier answers [True], [False] or raises [TypeError], on
    every payload: the lookup [event["Records"]] comes after the membership
    test, so a payload without the key never raises [KeyError]. *)
Theorem classifier_raises_only_type_error (event : pyval) :
  is_s3_event event = Ok true \/
  is_s3_event event = Ok false \/
  is_s3_event event = Raise TypeError.
Proof.
  unfold is_s3_event.
  destruct (py_in "Records" event) as [[|]|e] eqn:E.
  - destruct event; simpl in E; try discriminate; simpl.
    + now right; right.
    + now right; right.
    + unfold dict_has in E. injection E as E.
      destruct (dict_get "Records" d) as [v|]; [|discriminate].
      destruct v; simpl; try (now right; right); apply py_all_in_outcomes.
  - now right; left.
  - apply py_in_raises_type_error in E. subst e. now right; right.
Qed.

(** X2: the classifier stops at the first record without an "s3" entry: when
    the records before it have one, the payload is not a storage batch and
    goes to the router, whatever comes after that record (even a value on
    which the membership test would raise). *)
Theorem classifier_stops_at_first_miss (d : list (string * pyval))
    (pre post : list pyval) (r : pyval) :
  dict_get "Records" d = Some (PList (pre ++ r :: post)) ->
  Forall (fun x => py_in "s3" x = Ok true) pre ->
  py_in "s3" r = Ok false ->
  is_s3_event (PDict d) = Ok false /\
  forall context st,
    lambda_handler (PDict d) context st = apig_wsgi_handler (PDict d) context st.
Proof.
  intros HR Hpre Hr.
  assert (E : is_s3_event (PDict d) = Ok false).
  { unfold is_s3_event, py_in at 1, py_getitem, dict_has. rewrite HR. simpl.
    now apply py_all_first_false. }
  split; [exact E |].
  intros context st. unfold lambda_handler, bind, lift. now rewrite E.
Qed.

(** X3: on a payload the classifier accepts, the lookups the loop starts
    with cannot raise [KeyError]: [event["Records"]] is there and can be
    iterated, and on every element [record["s3"]] either succeeds or, when
    the element is not a mapping, raises [TypeError]. *)
Theorem accepted_batch_has_its_keys (event : pyval) :
  is_s3_event event = Ok true ->
  exists records l,
    py_getitem event "Records" = Ok records /\
    py_iter records = Ok l /\
    Forall (fun r => (exists rec, py_getitem r "s3" = Ok rec) \/
                     (is_mapping r = false /\ py_getitem r "s3" = Raise TypeError)) l.
Proof.
  unfold is_s3_event.
  destruct (py_in "Records" event) as [[|]|]; try discriminate.
  destruct (py_getitem event "Records") as [records|]; [|discriminate].
  destruct (py_iter records) as [l|] eqn:Hl; [|discriminate].
  intros H. exists records, l. split; [reflexivity | split; [exact Hl |]].
  apply py_all_true in H. eapply Forall_impl; [|exact H].
  intros r Hr. destruct r; simpl in Hr; try discriminate;
    try (right; split; reflexivity).
  left. unfold dict_has in Hr. simpl.
  destruct (dict_get "s3" d) as [rec|]; [now exists rec | discriminate].
Qed.

End Classifier.

Section StorageBranch.
Context {env : Collaborators}.

(** The loop body, step by step: the size test, then the translator, the
    pipeline and the log line. *)
Lemma process_record_cases (record : pyval) (st : State) :
  process_record record st =
  match record_size record with
  | Raise e => (Raise e, st)
  | Ok size =>
      if py_eq_int size 0 then (Ok tt, st)
      else
        bind (submit_content_request_from_s3_event_record (inner record))
          (fun req =>
             bind (submit_from_url req (Table DYNAMODB_TABLE) IMAGES_TOPIC_ARN)
               (fun _ => logger_info success_message)) st
  end.
Proof.
  unfold process_record, record_size, inner, result_bind.
  unfold bind at 1 2 3. unfold lift.
  destruct (py_getitem record "s3") as [r|]; [|reflexivity].
  destruct (py_getitem r "object") as [o|]; [|reflexivity].
  destruct (py_getitem o "size") as [size|]; [|reflexivity].
  destruct (py_eq_int size 0); reflexivity.
Qed.

Lemma add_strings (bucket key cid : pyval) :
  result_bind (py_add bucket (PStr "/")) (fun p => py_add p key) = Ok cid ->
  exists B K, bucket = PStr B /\ key = PStr K /\ cid = PStr (B ++ "/" ++ K).
Proof.
  destruct bucket; simpl; try discriminate.
  destruct key; simpl; try discriminate.
  intros H. injection H as <-. rewrite append_slash. now eauto.
Qed.

(** X4: the translator calls the signer only with a bucket name and a key
    that are strings: on every record it either raises with the state as it
    was, or bucket name and key are strings and the one call it adds is the
    signer's for them. *)
Theorem signer_gets_strings (record : pyval) (st : State) :
  (exists e, submit_content_request_from_s3_event_record record st = (Raise e, st)) \/
  (exists B K,
      record_bucket record = Ok (PStr B) /\
      record_key record = Ok (PStr K) /\
      snd (submit_content_request_from_s3_event_record record st) =
      record_call (CreatePresignedUrl (PStr B) (PStr K) PNone 3600 "get_object") st).
Proof.
  rewrite translator_cases.
  destruct (record_bucket record) as [bucket|e]; [|left; now exists e].
  destruct (record_key record) as [key|e]; [|left; now exists e].
  destruct (result_bind _ _) as [cid|e] eqn:E; [|left; now exists e].
  apply add_strings in E. destruct E as [B [K [-> [-> _]]]].
  right. exists B, K. repeat split.
Qed.

Lemma calls_record_call (c : call) (st : State) :
  calls (record_call c st) = (calls st ++ [c])%list.
Proof. reflexivity. Qed.

(** X5: a record with a size other than zero and with strings as bucket
    name [B] and key [K], when the signer gives a URL and the pipeline
    accepts the submission, makes three calls in this order: the signer for
    (B, K, None, 3600, "get_object"), the pipeline with the request for
    [B/K] and that URL, the table [DYNAMODB_TABLE] and the topic
    [IMAGES_TOPIC_ARN], and the success line of the log. *)
Theorem record_is_signed_submitted_logged (record size : pyval) (B K : string)
    (url v : pyval) (st : State) :
  let sign := CreatePresignedUrl (PStr B) (PStr K) PNone 3600 "get_object" in
  let req := request_for (PStr (B ++ "/" ++ K)) url in
  record_size record = Ok size ->
  py_eq_int size 0 = false ->
  record_bucket (inner record) = Ok (PStr B) ->
  record_key (inner record) = Ok (PStr K) ->
  presigned_url (calls st) (PStr B) (PStr K) PNone 3600 "get_object" = Ok url ->
  submit_outcome (calls st ++ [sign]) req (Table DYNAMODB_TABLE) IMAGES_TOPIC_ARN = Ok v ->
  process_record record st =
  (Ok tt,
   {| calls := calls st ++ [sign;
                            SubmitFromUrl req (Table DYNAMODB_TABLE) IMAGES_TOPIC_ARN;
                            LoggerInfo success_message];
      response_content_type := response_content_type st |}).
Proof.
  intros sign req Hs Hz HB HK Hu Hv.
  rewrite process_record_cases, Hs, Hz. unfold bind at 1.
  rewrite (translator_on_strings _ B K st HB HK), Hu.
  unfold bind, submit_from_url. rewrite calls_record_call.
  fold sign. fold req. rewrite Hv.
  unfold logger_info, record_call. simpl. now rewrite <- !app_assoc.
Qed.

(** X6: when the signer raises on such a record, the loop body raises the
    same exception after that one call: nothing is submitted and no success
    line is written. *)
Theorem signer_failure_stops_record (record size : pyval) (B K : string)
    (e : pyexn) (st : State) :
  record_size record = Ok size ->
  py_eq_int size 0 = false ->
  record_bucket (inner record) = Ok (PStr B) ->
  record_key (inner record) = Ok (PStr K) ->
  presigned_url (calls st) (PStr B) (PStr K) PNone 3600 "get_object" = Raise e ->
  process_record record st =
  (Raise e, record_call (CreatePresignedUrl (PStr B) (PStr K) PNone 3600 "get_object") st).
Proof.
  intros Hs Hz HB HK Hu.
  rewrite process_record_cases, Hs, Hz. unfold bind at 1.
  now rewrite (translator_on_strings _ B K st HB HK), Hu.
Qed.

(** X7: when the pipeline raises on the submission of such a record, the
    loop body raises the same exception after the calls to the signer and to
    the pipeline: the success line is not written. *)
Theorem pipeline_failure_is_not_logged (record size : pyval) (B K : string)
    (url : pyval) (e : pyexn) (st : State) :
  let sign := CreatePresignedUrl (PStr B) (PStr K) PNone 3600 "get_object" in
  let req := request_for (PStr (B ++ "/" ++ K)) url in
  record_size record = Ok size ->
  py_eq_int size 0 = false ->
  record_bucket (inner record) = Ok (PStr B) ->
  record_key (inner record) = Ok (PStr K) ->
  presigned_url (calls st) (PStr B) (PStr K) PNone 3600 "get_object" = Ok url ->
  submit_outcome (calls st ++ [sign]) req (Table DYNAMODB_TABLE) IMAGES_TOPIC_ARN = Raise e ->
  process_record record st =
  (Raise e,
   {| calls := calls st ++ [sign; SubmitFromUrl req (Table DYNAMODB_TABLE) IMAGES_TOPIC_ARN];
      response_content_type := response_content_type st |}).
Proof.
  intros sign req Hs Hz HB HK Hu Hv.
  rewrite process_record_cases, Hs, Hz. unfold bind at 1.
  rewrite (translator_on_strings _ B K st HB HK), Hu.
  unfold bind, submit_from_url. rewrite calls_record_call.
  fold sign. fold req. rewrite Hv.
  unfold record_call. simpl. now rewrite <- !app_assoc.
Qed.

End StorageBranch.

Section Batches.
Context {env : Collaborators}.

(** ** Batches the collaborators accept *)

Lemma processable_has_s3 (record : pyval) :
  processable record = true -> py_in "s3" record = Ok true.
Proof.
  unfold processable, record_size, result_bind.
  destruct record; simpl; try discriminate.
  unfold dict_has. destruct (dict_get "s3" d); [reflexivity | discriminate].
Qed.

Lemma all_processable_have_s3 (l : list pyval) :
  forallb processable l = true ->
  py_all (fun record => py_in "s3" record) l = Ok true.
Proof.
  induction l as [|r l IH]; simpl; intros H; [reflexivity |].
  apply andb_true_iff in H. destruct H as [Hr Hl].
  now rewrite (processable_has_s3 r Hr), IH.
Qed.

Lemma submitted_ids_app (l1 l2 : list call) :
  submitted_ids (l1 ++ l2) = (submitted_ids l1 ++ submitted_ids l2)%list.
Proof. apply flat_map_app. Qed.

Section Accepting.
Hypothesis signer_answers :
  forall history B K, exists url,
    presigned_url history (PStr B) (PStr K) PNone 3600 "get_object" = Ok url.
Hypothesis pipeline_accepts :
  forall history req table topic, exists v,
    submit_outcome history req table topic = Ok v.

Lemma processable_record_submits (record : pyval) (st : State) :
  processable record = true ->
  exists st',
    process_record record st = (Ok tt, st') /\
    submitted_ids (calls st') = (submitted_ids (calls st) ++ expected_ids record)%list.
Proof.
  unfold processable, expected_ids.
  destruct (record_size record) as [size|] eqn:Hs; [|discriminate].
  destruct (py_eq_int size 0) eqn:Hz; simpl.
  - intros _. exists st. rewrite process_record_cases, Hs, Hz.
    now rewrite app_nil_r.
  - destruct (record_bucket (inner record)) as [[| | |B| |]|] eqn:HB; try discriminate.
    destruct (record_key (inner record)) as [[| | |K| |]|] eqn:HK; try discriminate.
    intros _.
    destruct (signer_answers (calls st) B K) as [url Hu].
    destruct (pipeline_accepts
                (calls st ++ [CreatePresignedUrl (PStr B) (PStr K) PNone 3600 "get_object"])
                (request_for (PStr (B ++ "/" ++ K)) url)
                (Table DYNAMODB_TABLE) IMAGES_TOPIC_ARN) as [v Hv].
    eexists. split.
    + exact (record_is_signed_submitted_logged record size B K url v st Hs Hz HB HK Hu Hv).
    + simpl. now rewrite submitted_ids_app.
Qed.

Lemma processable_records_submit (l : list pyval) (st : State) :
  forallb processable l = true ->
  exists st',
    for_each process_record l st = (Ok tt, st') /\
    submitted_ids (calls st') =
    (submitted_ids (calls st) ++ flat_map expected_ids l)%list.
Proof.
  revert st. induction l as [|r l IH]; simpl; intros st H.
  - exists st. now rewrite app_nil_r.
  - apply andb_true_iff in H. destruct H as [Hr Hl].
    destruct (processable_record_submits r st Hr) as [st1 [E1 S1]].
    destruct (IH st1 Hl) as [st2 [E2 S2]].
    exists st2. rewrite (bind_ok _ _ _ _ _ E1). split; [exact E2 |].
    now rewrite S2, S1, app_assoc.
Qed.

(** X8: when the signer and the pipeline answer every call, a payload whose
    "Records" is a list of processable records is handled to the end: it is
    classified as a storage batch, the handler returns [None], and the
    pipeline gets, in the order of the records, one submission [B/K] for
    each record whose size is not zero and none for the others. *)
Theorem batch_submits_each_record_in_order (event context : pyval) (l : list pyval)
    (st : State) :
  py_getitem event "Records" = Ok (PList l) ->
  forallb processable l = true ->
  is_s3_event event = Ok true /\
  exists st',
    lambda_handler event context st = (Ok PNone, st') /\
    submitted_ids (calls st') =
    (submitted_ids (calls st) ++ flat_map expected_ids l)%list.
Proof.
  intros HR Hl.
  assert (Hc : is_s3_event event = Ok true).
  { unfold is_s3_event. rewrite HR. simpl.
    destruct event; try discriminate. simpl in *. unfold dict_has.
    destruct (dict_get "Records" d); [|discriminate].
    now apply all_processable_have_s3. }
  split; [exact Hc |].
  destruct (processable_records_submit l (record_call (LoggerInfo dispatch_message) st) Hl)
    as [st' [E S]].
  exists st'. split.
  - unfold lambda_handler, process_s3_event, bind, lift, logger_info.
    rewrite Hc, HR. simpl py_iter. cbv iota beta.
    unfold dispatch_message in E. now rewrite E.
  - rewrite S. rewrite calls_record_call, submitted_ids_app. simpl.
    now rewrite app_nil_r.
Qed.

End Accepting.

(** ** Any batch, any collaborators *)

Lemma count_calls_app (p : call -> bool) (l1 l2 : list call) :
  count_calls p (l1 ++ l2) = (count_calls p l1 + count_calls p l2)%nat.
Proof. unfold count_calls. now rewrite filter_app, length_app. Qed.

Ltac no_new_calls :=
  exists []; split; [simpl; now rewrite app_nil_r | vm_compute; lia].

Ltac these_calls l :=
  exists l; split; [simpl; now rewrite <- ?app_assoc | vm_compute; lia].

Lemma accounted_process_record (record : pyval) : accounted (process_record record).
Proof.
  intros st. rewrite process_record_cases.
  destruct (record_size record) as [size|]; [|no_new_calls].
  destruct (py_eq_int size 0); [no_new_calls |].
  unfold bind. rewrite translator_cases.
  destruct (record_bucket (inner record)) as [bucket|]; [|no_new_calls].
  destruct (record_key (inner record)) as [key|]; [|no_new_calls].
  destruct (result_bind _ _) as [cid|]; [|no_new_calls].
  destruct (presigned_url (calls st) bucket key PNone 3600 "get_object") as [url|].
  - unfold submit_from_url. rewrite calls_record_call.
    destruct (submit_outcome _ _ _ _).
    + these_calls
        [CreatePresignedUrl bucket key PNone 3600 "get_object";
         SubmitFromUrl (request_for cid url) (Table DYNAMODB_TABLE) IMAGES_TOPIC_ARN;
         LoggerInfo success_message].
    + these_calls
        [CreatePresignedUrl bucket key PNone 3600 "get_object";
         SubmitFromUrl (request_for cid url) (Table DYNAMODB_TABLE) IMAGES_TOPIC_ARN].
  - these_calls [CreatePresignedUrl bucket key PNone 3600 "get_object"].
Qed.

Lemma accounted_for_each {A} (body : A -> M unit) (l : list A) :
  (forall x, accounted (body x)) -> accounted (for_each body l).
Proof.
  intros Hb. induction l as [|x l IH]; intros st; simpl.
  - no_new_calls.
  - unfold bind. destruct (Hb x st) as [n1 [E1 C1]].
    destruct (body x st) as [[[]|e] st1]; simpl in E1, C1.
    + destruct (IH st1) as [n2 [E2 C2]]. exists (n1 ++ n2)%list.
      rewrite E2, E1, app_assoc. split; [reflexivity |].
      rewrite !count_calls_app.
      destruct (fst (for_each body l st1)); lia.
    + exists n1. simpl. now split.
Qed.

(** X9: whatever the payload and the collaborators do, the calls a batch
    adds are accounted for.  When [process_s3_event] returns, it made as many
    submissions as it signed URLs and wrote as many success lines.  When it
    raises, a success line never lacks its submission, a submission never
    lacks its URL, and at most one URL was signed for a record that did not
    get its success line. *)
Theorem batch_calls_are_accounted (event : pyval) : accounted (process_s3_event event).
Proof.
  intros st. unfold process_s3_event, bind, lift.
  destruct (py_getitem event "Records") as [records|]; [|no_new_calls].
  destruct (py_iter records) as [l|]; [|no_new_calls].
  destruct (accounted_for_each process_record l accounted_process_record st)
    as [new [E C]].
  exists new.
  destruct (for_each process_record l st) as [[[]|e] st']; simpl in *; now split.
Qed.

(** ** The calls of either branch *)

Lemma only_ret (P : call -> Prop) {A} (a : A) : adds_only P (ret a).
Proof. intros st. exists []. simpl. now rewrite app_nil_r. Qed.

Lemma only_lift (P : call -> Prop) {A} (r : result A) : adds_only P (lift r).
Proof. intros st. exists []. simpl. now rewrite app_nil_r. Qed.

Lemma only_bind (P : call -> Prop) {A B} (m : M A) (k : A -> M B) :
  adds_only P m -> (forall a, adds_only P (k a)) -> adds_only P (bind m k).
Proof.
  intros Hm Hk st. unfold bind. destruct (Hm st) as [n1 [E1 [F1 R1]]].
  destruct (m st) as [[a|e] st1]; simpl in E1, R1.
  - destruct (Hk a st1) as [n2 [E2 [F2 R2]]]. exists (n1 ++ n2)%list.
    rewrite E2, E1, app_assoc, R2, R1.
    split; [reflexivity | split; [now apply Forall_app | reflexivity]].
  - exists n1. simpl. now repeat split.
Qed.

Lemma only_for_each (P : call -> Prop) {A} (body : A -> M unit) (l : list A) :
  (forall x, adds_only P (body x)) -> adds_only P (for_each body l).
Proof.
  intros Hb. induction l as [|x l IH]; simpl.
  - apply only_ret.
  - apply only_bind; [apply Hb | intros _; exact IH].
Qed.

Lemma only_call (P : call -> Prop) {A} (c : call) (f : State -> result A) :
  P c -> adds_only P (fun st => (f st, record_call c st)).
Proof.
  intros Hc st. exists [c]. simpl. repeat split. now repeat constructor.
Qed.

Lemma storage_calls_of_record (record : pyval) :
  adds_only storage_call (process_record record).
Proof.
  unfold process_record.
  repeat (apply only_bind; [try apply only_lift | intro]).
  destruct (py_eq_int _ 0); [apply only_ret |].
  apply only_bind; [| intro req].
  - unfold submit_content_request_from_s3_event_record.
    repeat (apply only_bind; [try apply only_lift | intro]).
    + now apply only_call.
    + apply only_ret.
  - apply only_bind; [| intros _]; now apply only_call.
Qed.

(** X10: the handler takes one branch.  On every payload it either raises in
    the classifier with the state as it was, or makes the one call to the
    router, or writes the line of the storage branch and after it calls only
    the signer, the pipeline and [logger.info]: the storage branch never
    reaches the router or an error handler and leaves the content type of
    the response alone. *)
Theorem handler_takes_one_branch (event context : pyval) (st : State) :
  let st' := snd (lambda_handler event context st) in
  (is_s3_event event = Raise TypeError /\ st' = st) \/
  (is_s3_event event = Ok false /\ st' = record_call (ApigWsgiHandler event context) st) \/
  (is_s3_event event = Ok true /\
   exists new,
     calls st' = (calls st ++ LoggerInfo dispatch_message :: new)%list /\
     Forall storage_call new /\
     response_content_type st' = response_content_type st).
Proof.
  cbv zeta. unfold lambda_handler, bind, lift, logger_info, dispatch_message.
  destruct (classifier_raises_only_type_error event) as [E | [E | E]]; rewrite E;
    cbv beta iota.
  - right; right. split; [reflexivity |].
    assert (H : adds_only storage_call (process_s3_event event)).
    { unfold process_s3_event.
      repeat (apply only_bind; [try apply only_lift | intro]).
      - apply only_for_each. exact storage_calls_of_record.
      - apply only_ret. }
    destruct (H (record_call
                   (LoggerInfo
                      "Lambda triggered with S3 event. Converting to submit content request.")
                   st)) as [new [En [F R]]].
    exists new. rewrite En, R. simpl. now rewrite <- app_assoc.
  - right; left. now split.
  - left. now split.
Qed.

End Batches.

Section Routes.
Context {env : Collaborators}.

Lemma starts_with_split (p s : string) :
  starts_with p s = true -> exists rest, s = (p ++ rest)%string.
Proof.
  revert s. induction p as [|a p IH]; intros s; simpl.
  - intros _. now exists s.
  - destruct s as [|b s]; [discriminate |].
    intros H. apply andb_true_iff in H. destruct H as [Hab Hp].
    apply Ascii.eqb_eq in Hab. subst b.
    destruct (IH s Hp) as [rest ->]. now exists rest.
Qed.

Lemma mount_is_unique (prefix path : string) :
  In prefix mounts -> starts_with prefix path = true -> find_mount path = Some prefix.
Proof.
  intros Hin Hp. destruct (starts_with_split _ _ Hp) as [rest ->].
  unfold mounts in Hin. simpl in Hin.
  repeat (destruct Hin as [<- | Hin]; [reflexivity |]).
  contradiction.
Qed.

(** X11: the seven mounted prefixes do not overlap, so a path under one of
    them has exactly that owner, whatever the order of the [app.mount] calls:
    the request goes to the sub-application of the prefix and to nothing
    else, for every method, and what the sub-application returns is the
    response (without its body for a HEAD request). *)
Theorem mounted_prefix_owns_path (prefix : string) (req : Request) (r : HTTPResponse)
    (st : State) :
  In prefix mounts ->
  starts_with prefix (request_path req) = true ->
  mounted_response (calls st) prefix req = Ok r ->
  find_mount (request_path req) = Some prefix /\
  fst (app_call req st) = Ok (drop_body_of_head (request_method req) r) /\
  calls (snd (app_call req st)) = (calls st ++ [MountedApp prefix req])%list.
Proof.
  intros Hin Hp Hr. pose proof (mount_is_unique _ _ Hin Hp) as Hm.
  split; [exact Hm |].
  unfold app_call, bind, set_response_content_type. rewrite Hm.
  unfold catch_500, call_mounted. simpl calls. rewrite Hr. now split.
Qed.



End Routes.

(** * The further properties at sample payloads *)

Lemma classifier_stops_at_first_miss_witness :
  let d := [("Records", PList [s3_record "imgs" "a.jpg" 1234;
                               PDict [("eventName", PStr "ObjectCreated:Put")];
                               PInt 5])] in
  dict_get "Records" d =
    Some (PList ([s3_record "imgs" "a.jpg" 1234]
                   ++ PDict [("eventName", PStr "ObjectCreated:Put")] :: [PInt 5])) /\
  Forall (fun x => py_in "s3" x = Ok true) [s3_record "imgs" "a.jpg" 1234] /\
  py_in "s3" (PDict [("eventName", PStr "ObjectCreated:Put")]) = Ok false /\
  is_s3_event (PDict d) = Ok false /\
  forall context st,
    @lambda_handler sample_env (PDict d) context st =
    @apig_wsgi_handler sample_env (PDict d) context st.
Proof.
  cbv zeta. split; [reflexivity |].
  split; [repeat constructor |]. split; [reflexivity |].
  apply (@classifier_stops_at_first_miss sample_env _
           [s3_record "imgs" "a.jpg" 1234] [PInt 5]
           (PDict [("eventName", PStr "ObjectCreated:Put")]));
    [reflexivity | repeat constructor | reflexivity].
Defined.

Lemma accepted_batch_has_its_keys_witness :
  is_s3_event batch_of_three = Ok true /\
  exists records l,
    py_getitem batch_of_three "Records" = Ok records /\
    py_iter records = Ok l /\
    Forall (fun r => (exists rec, py_getitem r "s3" = Ok rec) \/
                     (is_mapping r = false /\ py_getitem r "s3" = Raise TypeError)) l.
Proof.
  split; [reflexivity |].
  apply (accepted_batch_has_its_keys batch_of_three). reflexivity.
Defined.

Lemma record_is_signed_submitted_logged_witness :
  let record := s3_record "imgs" "a.jpg" 1234 in
  let url := PStr "https://imgs.s3.amazonaws.com/a.jpg?X-Amz-Expires=3600&n=0" in
  let sign := CreatePresignedUrl (PStr "imgs") (PStr "a.jpg") PNone 3600 "get_object" in
  let req := request_for (PStr "imgs/a.jpg") url in
  record_size record = Ok (PInt 1234) /\
  py_eq_int (PInt 1234) 0 = false /\
  record_bucket (inner record) = Ok (PStr "imgs") /\
  record_key (inner record) = Ok (PStr "a.jpg") /\
  @process_record sample_env record st0 =
  (Ok tt,
   {| calls := [sign;
                SubmitFromUrl req (Table "hma-datastore") "arn:aws:sns:us-east-1:1:images";
                LoggerInfo success_message];
      response_content_type := default_content_type |}).
Proof.
  cbv zeta. repeat (split; [reflexivity |]).
  apply (@record_is_signed_submitted_logged sample_env
           (s3_record "imgs" "a.jpg" 1234) (PInt 1234) "imgs" "a.jpg"
           (PStr "https://imgs.s3.amazonaws.com/a.jpg?X-Amz-Expires=3600&n=0")
           PNone st0); reflexivity.
Defined.

Lemma signer_failure_stops_record_witness :
  let record := s3_record "imgs" "a.jpg" 1234 in
  record_size record = Ok (PInt 1234) /\
  py_eq_int (PInt 1234) 0 = false /\
  @process_record failing_signer_env record st0 =
  (Raise (Raised "EndpointConnectionError"),
   record_call (CreatePresignedUrl (PStr "imgs") (PStr "a.jpg") PNone 3600 "get_object") st0).
Proof.
  cbv zeta. repeat (split; [reflexivity |]).
  apply (@signer_failure_stops_record failing_signer_env
           (s3_record "imgs" "a.jpg" 1234) (PInt 1234) "imgs" "a.jpg"
           (Raised "EndpointConnectionError") st0); reflexivity.
Defined.

Lemma pipeline_failure_is_not_logged_witness :
  let record := s3_record "imgs" "a.jpg" 1234 in
  let sign := CreatePresignedUrl (PStr "imgs") (PStr "a.jpg") PNone 3600 "get_object" in
  let req := request_for (PStr "imgs/a.jpg") (PStr "https://signed.example/object") in
  record_size record = Ok (PInt 1234) /\
  py_eq_int (PInt 1234) 0 = false /\
  @process_record failing_pipeline_env record st0 =
  (Raise (Raised "ClientError"),
   {| calls := [sign;
                SubmitFromUrl req (Table "hma-datastore") "arn:aws:sns:us-east-1:1:images"];
      response_content_type := default_content_type |}).
Proof.
  cbv zeta. repeat (split; [reflexivity |]).
  apply (@pipeline_failure_is_not_logged failing_pipeline_env
           (s3_record "imgs" "a.jpg" 1234) (PInt 1234) "imgs" "a.jpg"
           (PStr "https://signed.example/object") (Raised "ClientError") st0);
    reflexivity.
Defined.

Lemma batch_submits_each_record_in_order_witness :
  let l := [s3_record "imgs" "a.jpg" 1234; s3_record "imgs" "uploads/" 0;
            s3_record "thumbs" "b.png" 9] in
  py_getitem (batch l) "Records" = Ok (PList l) /\
  forallb processable l = true /\
  is_s3_event (batch l) = Ok true /\
  exists st',
    @lambda_handler sample_env (batch l) PNone st0 = (Ok PNone, st') /\
    submitted_ids (calls st') = [PStr "imgs/a.jpg"; PStr "thumbs/b.png"].
Proof.
  cbv zeta. split; [reflexivity |]. split; [reflexivity |].
  exact (@batch_submits_each_record_in_order sample_env
           (fun history B K => ex_intro _ _ eq_refl)
           (fun history req table topic => ex_intro _ _ eq_refl)
           (batch [s3_record "imgs" "a.jpg" 1234; s3_record "imgs" "uploads/" 0;
                   s3_record "thumbs" "b.png" 9]) PNone
           [s3_record "imgs" "a.jpg" 1234; s3_record "imgs" "uploads/" 0;
            s3_record "thumbs" "b.png" 9] st0 eq_refl eq_refl).
Defined.

Lemma mounted_prefix_owns_path_witness :
  let req := request_to "POST" "/matches/for-hash/" in
  let r := {| status_code := 200; resp_content_type := "application/json";
              resp_body := "{}" |} in
  In "/matches/" mounts /\
  starts_with "/matches/" (request_path req) = true /\
  find_mount (request_path req) = Some "/matches/" /\
  fst (@app_call sample_env req st0) = Ok r /\
  calls (snd (@app_call sample_env req st0)) = [MountedApp "/matches/" req].
Proof.
  cbv zeta. split; [right; left; reflexivity |]. split; [reflexivity |].
  apply (@mounted_prefix_owns_path sample_env "/matches/"
           (request_to "POST" "/matches/for-hash/")
           {| status_code := 200; resp_content_type := "application/json";
              resp_body := "{}" |} st0);
    [right; left; reflexivity | reflexivity | reflexivity].
Defined.


